(** * code_analysis.py: the structure extractor and its driver

    A shallow embedding of [src/code_analysis.py]: the [ast.NodeVisitor]
    subclass [CodeStructureAnalyzer], the driver [analyze_file], the report
    step [generate_pdf_report] and the [__main__] block.

    Conventions of the model.
    - A Python [dict] is an association list in insertion order: assigning to a
      key that is present replaces its value in place, assigning to a new key
      appends.  Uniqueness of keys is therefore a theorem, not a typing fact.
    - A Python [set] of strings is a [gset string].
    - [print], [open] and a report written by [doc.build] are recorded as
      events of a trace.
    - What the program takes from the interpreter and its libraries
      ([ast.parse], [inspect.cleandoc], [os.path], the order in which a set is
      iterated, the recursion limit, reportlab) is the interface [Runtime];
      the files a run can read are a [filesystem].
    - The analyzer objects of a process live in a heap; [CodeStructureAnalyzer()]
      takes the next free address.
    - [visit] itself is total: it is the traversal that completes.  Whether
      the interpreter's recursion limit lets it complete is decided in
      [analyze_file], by the [Runtime]. *)

From Stdlib Require Import Ascii String.
From stdpp Require Import gmap strings list.

Set Warnings "-register-all,-clear-no-such-hyp".

(** ** Syntax trees *)

(** The values an [ast.Constant] node carries.  Floats and complex numbers are
    left out: [ast.get_docstring] only tells strings from everything else. *)
Inductive constant :=
  | CStr (s : string)
  | CBytes (s : string)
  | CInt (z : Z)
  | CBool (b : bool)
  | CNone
  | CEllipsis.

(** [ast.alias]: [name] and the optional [asname] of [import name as asname]. *)
Record alias := Alias { alias_name : string; alias_asname : option string }.

(** [ast.AST] nodes.  The node kinds the program (or [ast.get_docstring])
    tells apart have a constructor of their own, with their fields in the
    order of [_fields]; left out are the fields that hold no AST node and
    that the program never reads (such as [type_comment]), and
    [Module.type_ignores], whose nodes are leaves without a handler.  Every other node kind is [Other kind children],
    [children] being its AST-valued fields in [iter_fields] order. *)
Inductive node :=
  | Module (body : list node)
  | FunctionDef (name : string) (args : node) (body : list node)
      (decorator_list : list node) (returns : option node) (type_params : list node)
  | AsyncFunctionDef (name : string) (args : node) (body : list node)
      (decorator_list : list node) (returns : option node) (type_params : list node)
  | ClassDef (name : string) (bases : list node) (keywords : list node)
      (body : list node) (decorator_list : list node) (type_params : list node)
  | Import (names : list alias)
  | ImportFrom (module : option string) (names : list alias) (level : nat)
  | Expr (value : node)
  | Constant (value : constant)
  | Other (kind : string) (children : list node).

(** ** The interpreter and library interface *)

Inductive exn :=
  | SystemExit (status : Z)
  | Exception (name : string).

Class Runtime := {
  (** [ast.parse(code)]: the tree, or [None] when it raises [SyntaxError]. *)
  ast_parse : string → option node;
  (** [inspect.cleandoc], applied by [ast.get_docstring] ([clean=True]). *)
  cleandoc : string → string;
  (** [os.path.splitext(p)[0]] and [os.path.basename(p)]. *)
  splitext_root : string → string;
  basename : string → string;
  (** [for x in s] on a set of strings: the elements, each once, in an order
      that depends on the hash seed of the interpreter. *)
  set_iteration : ∀ s : gset string, { l : list string | l ≡ₚ elements s };
  (** The recursion limit against [analyzer.visit(tree)]: [None] when the
      traversal of the tree completes, [Some k] when [RecursionError] is
      raised after the handlers of the first [k] nodes of the traversal have
      run (the frames of the interpreter, colorama and inspect are not
      counted in the model, nor the place inside a handler where the error
      surfaces). *)
  traversal_overflow : node → option nat;
  (** The reportlab calls of [generate_pdf_report] ([Paragraph], [Table],
      [doc.build]) for an output path, a title and the table: [None] when
      the document is written, [Some e] when one of them raises [e]
      (unwritable path, a row too large for the page, ...). *)
  render : string → string → list (list (option string)) → option exn
}.

(** [for x in s]. *)
Definition iterate `{Runtime} (s : gset string) : list string :=
  proj1_sig (set_iteration s).

(** [open(file_path, "r")] followed by [file.read()]: the text, or the
    exception raised ([FileNotFoundError], [PermissionError], ...). *)
Definition filesystem := string → exn + string.

(** ** Dictionaries *)

Section dict.
Context {V : Type}.

Definition dict := list (string * V).

(** [d[k] = v]. *)
Fixpoint dict_set (d : list (string * V)) (k : string) (v : V) : list (string * V) :=
  match d with
  | [] => [(k, v)]
  | (k', v') :: d' =>
      if decide (k' = k) then (k, v) :: d' else (k', v') :: dict_set d' k v
  end.

(** [d.get(k)]. *)
Fixpoint dict_get (d : list (string * V)) (k : string) : option V :=
  match d with
  | [] => None
  | (k', v') :: d' => if decide (k' = k) then Some v' else dict_get d' k
  end.

(** The keys, in iteration order. *)
Definition dict_keys (d : list (string * V)) : list string := d.*1.

(** How many entries a key has. *)
Definition dict_count (d : list (string * V)) (k : string) : nat :=
  length (filter (λ kv, kv.1 = k) d).
End dict.

Arguments dict : clear implicits.

(** ** The analyzer object and the console *)

Record analyzer := Analyzer {
  functions : dict (option string);
  classes : dict (option string);
  dependencies : gset string
}.

Inductive event :=
  | Print (text : string)
  | Open (path : string)
  | Build (output_file : string) (title : string) (data : list (list (option string))).

(** The state a visit runs in: the analyzer ([self]) and the events so far. *)
Record vstate := VState { self : analyzer; trace : list event }.

Definition print (text : string) (st : vstate) : vstate :=
  VState (self st) (trace st ++ [Print text]).

Definition ESC : string := String (ascii_of_nat 27) "".
Definition TAB : string := String (ascii_of_nat 9) "".
Definition NL : string := String (ascii_of_nat 10) "".

(** colorama's [Fore] constants. *)
Definition Fore_RED : string := ESC +:+ "[31m".
Definition Fore_GREEN : string := ESC +:+ "[32m".
Definition Fore_YELLOW : string := ESC +:+ "[33m".
Definition Fore_BLUE : string := ESC +:+ "[34m".

(** [CodeStructureAnalyzer.__init__]. *)
Definition CodeStructureAnalyzer_init : analyzer :=
  Analyzer [] [] ∅.

(** [str(x)] of an optional string inside an f-string: [None] prints as the
    text [None]. *)
Definition format_opt (o : option string) : string :=
  match o with
  | Some s => s
  | None => "None"
  end.

Section visitor.
Context `{Runtime}.

(** [ast.get_docstring(node)] for a node with the given [body].  The type
    test of [get_docstring] passes at both call sites (the node is a
    [FunctionDef] or a [ClassDef]). *)
Definition get_docstring (body : list node) : option string :=
  match body with
  | Expr (Constant (CStr text)) :: _ => Some (cleandoc text)
  | _ => None
  end.

(** [if docstring:] — neither [None] nor the empty string. *)
Definition truthy (docstring : option string) : bool :=
  match docstring with
  | Some (String _ _) => true
  | _ => false
  end.

(** The four handlers.  [generic_visit] is the traversal of the node's
    children, which each handler calls last. *)
Definition visit_FunctionDef (name : string) (body : list node)
    (generic_visit : vstate → vstate) (st : vstate) : vstate :=
  let st := print (Fore_GREEN +:+ "Function: " +:+ name) st in
  let docstring := get_docstring body in
  let st := if truthy docstring
            then print (TAB +:+ "Docstring: " +:+ format_opt docstring) st
            else st in
  let st := VState (Analyzer (dict_set (functions (self st)) name (get_docstring body))
                             (classes (self st))
                             (dependencies (self st)))
                   (trace st) in
  generic_visit st.

Definition visit_ClassDef (name : string) (body : list node)
    (generic_visit : vstate → vstate) (st : vstate) : vstate :=
  let st := print (Fore_BLUE +:+ "Class: " +:+ name) st in
  let docstring := get_docstring body in
  let st := if truthy docstring
            then print (TAB +:+ "Docstring: " +:+ format_opt docstring) st
            else st in
  let st := VState (Analyzer (functions (self st))
                             (dict_set (classes (self st)) name (get_docstring body))
                             (dependencies (self st)))
                   (trace st) in
  generic_visit st.

(** One round of the [for alias in node.names] loop, [key] being the string
    printed and added. *)
Definition add_dependency (key : string) (st : vstate) : vstate :=
  let st := print (Fore_YELLOW +:+ "Import: " +:+ key) st in
  VState (Analyzer (functions (self st)) (classes (self st))
                   ({[ key ]} ∪ dependencies (self st)))
         (trace st).

Definition visit_Import (names : list alias)
    (generic_visit : vstate → vstate) (st : vstate) : vstate :=
  let st := foldl (λ st a, add_dependency (alias_name a) st) st names in
  generic_visit st.

Definition visit_ImportFrom (module : option string) (names : list alias)
    (generic_visit : vstate → vstate) (st : vstate) : vstate :=
  let st :=
    foldl (λ st a, add_dependency (format_opt module +:+ "." +:+ alias_name a) st)
          st names in
  generic_visit st.

(** [NodeVisitor.visit]: dispatch on the node's class, [generic_visit] when
    the class has no handler.  The only children of an import node are its
    [alias] nodes, which have no AST-valued field and no handler: visiting
    them does nothing. *)
Fixpoint visit (n : node) (st : vstate) {struct n} : vstate :=
  let visit_list := λ (l : list node) (st : vstate), foldl (λ st c, visit c st) st l in
  let visit_opt := λ (o : option node) (st : vstate),
                     match o with Some c => visit c st | None => st end in
  match n with
  | Module body => visit_list body st
  | FunctionDef name args body decorator_list returns type_params =>
      visit_FunctionDef name body
        (λ st, visit_list type_params (visit_opt returns
                 (visit_list decorator_list (visit_list body (visit args st))))) st
  | AsyncFunctionDef name args body decorator_list returns type_params =>
      visit_list type_params (visit_opt returns
        (visit_list decorator_list (visit_list body (visit args st))))
  | ClassDef name bases keywords body decorator_list type_params =>
      visit_ClassDef name body
        (λ st, visit_list type_params (visit_list decorator_list
                 (visit_list body (visit_list keywords (visit_list bases st))))) st
  | Import names => visit_Import names (λ st, st) st
  | ImportFrom module names level => visit_ImportFrom module names (λ st, st) st
  | Expr value => visit value st
  | Constant _ => st
  | Other _ children => visit_list children st
  end.
End visitor.


(** ** The traversal as a list of nodes *)

(** The AST-valued fields of a node, in the order [generic_visit] walks them. *)
Definition children (n : node) : list node :=
  match n with
  | Module body => body
  | FunctionDef _ args body decorator_list returns type_params
  | AsyncFunctionDef _ args body decorator_list returns type_params =>
      args :: body ++ decorator_list ++ option_list returns ++ type_params
  | ClassDef _ bases keywords body decorator_list type_params =>
      bases ++ keywords ++ body ++ decorator_list ++ type_params
  | Import _ | ImportFrom _ _ _ | Constant _ => []
  | Expr value => [value]
  | Other _ children => children
  end.

(** The nodes [visit] is called on, in the order of the calls (depth first,
    a node before its children). *)
Fixpoint visit_order (n : node) : list node :=
  let order_list := λ l : list node, flat_map visit_order l in
  n ::
  match n with
  | Module body => order_list body
  | FunctionDef _ args body decorator_list returns type_params
  | AsyncFunctionDef _ args body decorator_list returns type_params =>
      visit_order args ++ order_list body ++ order_list decorator_list
      ++ match returns with Some r => visit_order r | None => [] end
      ++ order_list type_params
  | ClassDef _ bases keywords body decorator_list type_params =>
      order_list bases ++ order_list keywords ++ order_list body
      ++ order_list decorator_list ++ order_list type_params
  | Import _ | ImportFrom _ _ _ | Constant _ => []
  | Expr value => visit_order value
  | Other _ children => order_list children
  end.

(** What a node's own handler does before the traversal goes on. *)
Definition enter `{Runtime} (n : node) (st : vstate) : vstate :=
  match n with
  | FunctionDef name _ body _ _ _ => visit_FunctionDef name body (λ st, st) st
  | ClassDef name _ _ body _ _ => visit_ClassDef name body (λ st, st) st
  | Import names => visit_Import names (λ st, st) st
  | ImportFrom module names _ => visit_ImportFrom module names (λ st, st) st
  | _ => st
  end.

(** The keys the import nodes of a list add, in order. *)
Definition import_keys (n : node) : list string :=
  match n with
  | Import names => map alias_name names
  | ImportFrom module names _ =>
      map (λ a, format_opt module +:+ "." +:+ alias_name a) names
  | _ => []
  end.

(** The definition a node records: its name and docstring. *)
Definition function_entry `{Runtime} (n : node) : option (string * option string) :=
  match n with
  | FunctionDef name _ body _ _ _ => Some (name, get_docstring body)
  | _ => None
  end.

Definition class_entry `{Runtime} (n : node) : option (string * option string) :=
  match n with
  | ClassDef name _ _ body _ _ => Some (name, get_docstring body)
  | _ => None
  end.

(** [n] occurs in [tree], at any depth. *)
Inductive subnode : node → node → Prop :=
  | subnode_here n : subnode n n
  | subnode_child n c tree : c ∈ children tree → subnode n c → subnode n tree.


(** ** The analyzer's side of the traversal *)

(** The effect of a node's handler on the analyzer alone. *)
Definition record `{Runtime} (n : node) (a : analyzer) : analyzer :=
  Analyzer
    (match function_entry n with
     | Some (name, doc) => dict_set (functions a) name doc
     | None => functions a
     end)
    (match class_entry n with
     | Some (name, doc) => dict_set (classes a) name doc
     | None => classes a
     end)
    (list_to_set (import_keys n) ∪ dependencies a).

(** [d[k] = v] for a list of entries, first to last. *)
Definition dict_set_all {V} (d : dict V) (es : list (string * V)) : dict V :=
  foldl (λ d kv, dict_set d kv.1 kv.2) d es.
(** The name a function (class) definition node records. *)
Definition function_name (n : node) : option string :=
  match n with
  | FunctionDef name _ _ _ _ _ => Some name
  | _ => None
  end.

Definition class_name (n : node) : option string :=
  match n with
  | ClassDef name _ _ _ _ _ => Some name
  | _ => None
  end.

(** The text of the docstring statement of a body, before [cleandoc]. *)
Definition docstring_text (body : list node) : option string :=
  match body with
  | Expr (Constant (CStr text)) :: _ => Some text
  | _ => None
  end.

(** The extraction pass of [analyze_file]: a fresh analyzer visits the tree,
    [tr] being what the console holds when it starts. *)
Definition extracted `{Runtime} (tree : node) (tr : list event) : analyzer :=
  self (visit tree (VState CodeStructureAnalyzer_init tr)).

(** ** The driver *)

(** How a run ends: it returns, or an exception reaches the top level. *)
Inductive outcome :=
  | Returned
  | Raised (e : exn).

(** The exit status of the interpreter: [0] after a normal end, the argument
    of [sys.exit], [1] after any other uncaught exception. *)
Definition exit_status (o : outcome) : Z :=
  match o with
  | Returned => 0
  | Raised (SystemExit status) => status
  | Raised (Exception _) => 1
  end.

(** A process: the analyzer objects created so far, by address, and the
    events so far. *)
Record process := Process { heap : list analyzer; console : list event }.

(** A run of the program: its events, how it ended, and the analyzer object
    it created ([None] when it stopped before creating one). *)
Record run := Run {
  run_trace : list event;
  run_outcome : outcome;
  run_analyzer : option analyzer
}.

Section driver.
Context `{Runtime}.

(** The rows of the report table; the dependencies come in the order in
    which the set is iterated. *)
Definition report_data (a : analyzer) : list (list (option string)) :=
  [[Some "Type"; Some "Name"; Some "Docstring"]]
  ++ map (λ kv, [Some "Function"; Some kv.1; kv.2]) (functions a)
  ++ map (λ kv, [Some "Class"; Some kv.1; kv.2]) (classes a)
  ++ map (λ d, [Some "Import"; Some d; Some ""]) (iterate (dependencies a)).

(** [generate_pdf_report]: the report is written, which is the one event, or
    a reportlab call raises and the exception leaves the function. *)
Definition generate_pdf_report (a : analyzer) (file_path : string)
    (tr : list event) : list event * outcome :=
  let output_file := splitext_root file_path +:+ "_analysis_report.pdf" in
  let title := "Code Analysis Report: " +:+ basename file_path in
  let data := report_data a in
  match render output_file title data with
  | None => (tr ++ [Build output_file title data], Returned)
  | Some e => (tr, Raised e)
  end.

(** [CodeStructureAnalyzer()]: a new object at the next free address. *)
Definition new_analyzer (p : process) : nat * process :=
  (length (heap p), Process (heap p ++ [CodeStructureAnalyzer_init]) (console p)).

(** A method call on the object at address [l]: [f] is what the call does to
    the object and the console. *)
Definition call_on (l : nat) (f : vstate → vstate) (p : process) : process :=
  match heap p !! l with
  | Some a =>
      let st := f (VState a (console p)) in
      Process (<[l := self st]> (heap p)) (trace st)
  | None => p
  end.

(** [analyze_file], step by step: the file is read, the text parsed, the
    analyzer created, the tree visited, the dependencies printed and the
    report written; the first step that raises ends the run.  The traversal
    either completes or stops at the recursion limit, with the handlers of
    the first [k] nodes done.  [analyzer] is the object at [l], which is in
    the heap since [new_analyzer] put it there. *)
Definition analyze_file (fs : filesystem) (file_path : string)
    (p : process) : process * outcome :=
  let p := Process (heap p) (console p ++ [Open file_path]) in
  match fs file_path with
  | inl e => (p, Raised e)
  | inr code =>
      match ast_parse code with
      | None => (p, Raised (Exception "SyntaxError"))
      | Some tree =>
          let '(l, p) := new_analyzer p in
          match traversal_overflow tree with
          | Some k =>
              (call_on l (λ st, foldl (λ st m, enter m st) st (take k (visit_order tree))) p,
               Raised (Exception "RecursionError"))
          | None =>
              let p := call_on l (visit tree) p in
              let analyzer := default CodeStructureAnalyzer_init (heap p !! l) in
              let tr := console p ++ [Print (NL +:+ Fore_RED +:+ "Dependencies:")] in
              let tr := foldl (λ tr d, tr ++ [Print (TAB +:+ d)]) tr
                              (iterate (dependencies analyzer)) in
              let '(tr, o) := generate_pdf_report analyzer file_path tr in
              (Process (heap p) tr, o)
          end
      end
  end.

(** The [__main__] block, [sys.argv] being [prog :: args], in a new
    process. *)
Definition main (fs : filesystem) (prog : string) (args : list string) : run :=
  match args with
  | [file_path] =>
      let '(p, o) := analyze_file fs file_path (Process [] []) in
      Run (console p) o (heap p !! 0)
  | _ => Run [Print ("Usage: " +:+ prog +:+ " <path_to_python_file>")]
             (Raised (SystemExit 1)) None
  end.
End driver.

(** The nodes whose handlers run in [analyze_file]: all of the traversal, or
    those before the recursion limit is hit. *)
Definition traversed `{Runtime} (tree : node) : list node :=
  match traversal_overflow tree with
  | Some k => take k (visit_order tree)
  | None => visit_order tree
  end.

(** ** A concrete runtime

    Executable models of the library functions, after CPython's
    [inspect.cleandoc] and [posixpath], over strings of code points below
    256.  The theorems below hold for every [Runtime]; this one serves to run
    the model on concrete inputs. *)

Module Sample.
(** [str.isspace] on one code point below 256. *)
Definition isspace (c : ascii) : bool :=
  let n := nat_of_ascii c in
  bool_decide (9 ≤ n ≤ 13) || bool_decide (28 ≤ n ≤ 32)
  || bool_decide (n = 133) || bool_decide (n = 160).

Definition is_char (n : nat) (c : ascii) : bool :=
  bool_decide (nat_of_ascii c = n).

(** [s.expandtabs()], [col] being the column reached. *)
Fixpoint expandtabs (col : nat) (s : string) : string :=
  match s with
  | EmptyString => EmptyString
  | String c s' =>
      if is_char 9 c then
        let incr := 8 - col `mod` 8 in
        string_of_list_ascii (replicate incr " "%char) +:+ expandtabs (col + incr) s'
      else if is_char 10 c || is_char 13 c then String c (expandtabs 0 s')
      else String c (expandtabs (S col) s')
  end.

(** [s.split('\n')]. *)
Fixpoint split_lines (s : string) : list string :=
  match s with
  | EmptyString => [EmptyString]
  | String c s' =>
      if is_char 10 c then EmptyString :: split_lines s'
      else match split_lines s' with
           | line :: lines => String c line :: lines
           | [] => [String c EmptyString]
           end
  end.

(** [s.lstrip()]. *)
Fixpoint lstrip (s : string) : string :=
  match s with
  | EmptyString => EmptyString
  | String c s' => if isspace c then lstrip s' else s
  end.

(** [s[n:]]. *)
Fixpoint drop_chars (n : nat) (s : string) : string :=
  match n, s with
  | S n', String _ s' => drop_chars n' s'
  | _, _ => s
  end.

(** The least indentation of the non-blank lines, [None] for
    [sys.maxsize]. *)
Definition margin (lines : list string) : option nat :=
  foldl (λ m line,
           let content := String.length (lstrip line) in
           if bool_decide (content = 0) then m
           else let indent := String.length line - content in
                match m with
                | Some m' => Some (m' `min` indent)
                | None => Some indent
                end)
        None lines.

Definition is_empty (s : string) : bool :=
  match s with EmptyString => true | _ => false end.

Fixpoint drop_empty (lines : list string) : list string :=
  match lines with
  | line :: lines' => if is_empty line then drop_empty lines' else lines
  | [] => []
  end.

Definition inspect_cleandoc (doc : string) : string :=
  match split_lines (expandtabs 0 doc) with
  | [] => EmptyString
  | first :: others =>
      let others := match margin others with
                    | Some m => map (drop_chars m) others
                    | None => others
                    end in
      let lines := lstrip first :: others in
      let lines := rev (drop_empty (rev lines)) in
      let lines := drop_empty lines in
      String.concat NL lines
  end.

(** [p.rfind(c)]: the last index of [c], from position [i] on. *)
Fixpoint rfind (n : nat) (i : nat) (l : list ascii) : option nat :=
  match l with
  | [] => None
  | c :: l' =>
      match rfind n (S i) l' with
      | Some j => Some j
      | None => if is_char n c then Some i else None
      end
  end.

(** [posixpath.basename]. *)
Definition posix_basename (p : string) : string :=
  let l := list_ascii_of_string p in
  match rfind 47 0 l with
  | Some i => string_of_list_ascii (drop (S i) l)
  | None => p
  end.

(** [posixpath.splitext(p)[0]]: cut at the last dot of the file name,
    unless the name has only leading dots before it. *)
Definition posix_splitext_root (p : string) : string :=
  let l := list_ascii_of_string p in
  let start := match rfind 47 0 l with Some i => S i | None => 0 end in
  match rfind 46 0 l with
  | Some dot =>
      if bool_decide (start ≤ dot)
         && existsb (λ c, negb (is_char 46 c)) (take (dot - start) (drop start l))
      then string_of_list_ascii (take dot l)
      else p
  | None => p
  end.

(** A runtime with a parser given by a table (a text absent from [trees] is
    a syntax error), sets iterated in the order of [elements], and the given
    recursion limit and reportlab behaviour. *)
Definition runtime_with (trees : dict node) (overflow : node → option nat)
    (reportlab : string → string → list (list (option string)) → option exn)
    : Runtime := {|
  ast_parse := dict_get trees;
  cleandoc := inspect_cleandoc;
  splitext_root := posix_splitext_root;
  basename := posix_basename;
  set_iteration := λ s, exist _ (elements s) (Permutation_refl (elements s));
  traversal_overflow := overflow;
  render := reportlab
|}.

(** The same, with no tree too deep and every report written. *)
Definition runtime (trees : dict node) : Runtime :=
  runtime_with trees (λ _, None) (λ _ _ _, None).

(** A file system given by a table: a path absent from it does not exist. *)

Definition files (table : dict string) : filesystem :=
  λ path, match dict_get table path with
          | Some text => inr text
          | None => inl (Exception "FileNotFoundError")
          end.

Definition arguments : node := Other "arguments" [].
Definition Pass : node := Other "Pass" [].
Definition Str (s : string) : node := Expr (Constant (CStr s)).
Definition def (name : string) (body : list node) : node :=
  FunctionDef name arguments body [] None [].
Definition async_def (name : string) (body : list node) : node :=
  AsyncFunctionDef name arguments body [] None [].
Definition class (name : string) (body : list node) : node :=
  ClassDef name [] [] body [] [].

(** The end-to-end scenario of the specification: one function [foo] with
    docstring [doc], one class [Bar], and [import os]. *)
Definition scenario_source : string := "def foo(): ...".
Definition scenario_tree : node :=
  Module [def "foo" [Str "doc"]; class "Bar" [Pass]; Import [Alias "os" None]].
End Sample.

(** Concrete inputs on which the theorems below are run. *)
Module Witness.
Import Sample.

(** A runtime whose parser knows the scenario text only. *)
Definition rt : Runtime := runtime [(scenario_source, scenario_tree)].

Definition fresh : vstate := VState CodeStructureAnalyzer_init [].

Definition from_x_import_y_z : node :=
  ImportFrom (Some "x") [Alias "y" None; Alias "z" None] 0.

Definition from_dot_import_y : node := ImportFrom None [Alias "y" None] 1.

(** [def f] twice, the second time inside a class. *)
Definition second_f : node := def "f" [Str "second"].
Definition twice : node :=
  Module [def "f" [Str "first"]; class "C" [Pass; second_f]].

Definition bad_files : filesystem := files [("bad.py", "def f(:")].

(** A process that has run before: one analyzer object, some output. *)
Definition busy : process :=
  Process [Analyzer [("old", None)] [("Base", None)] {["sys"]}] [Print "earlier output"].
End Witness.

(** ** The console's side of the traversal *)

(** The lines a node's own handler prints, in order. *)
Definition console_lines `{Runtime} (n : node) : list string :=
  match n with
  | FunctionDef name _ body _ _ _ =>
      (Fore_GREEN +:+ "Function: " +:+ name)
      :: (if truthy (get_docstring body)
          then [TAB +:+ "Docstring: " +:+ format_opt (get_docstring body)]
          else [])
  | ClassDef name _ _ body _ _ =>
      (Fore_BLUE +:+ "Class: " +:+ name)
      :: (if truthy (get_docstring body)
          then [TAB +:+ "Docstring: " +:+ format_opt (get_docstring body)]
          else [])
  | Import names => map (λ a, Fore_YELLOW +:+ "Import: " +:+ alias_name a) names
  | ImportFrom module names _ =>
      map (λ a, Fore_YELLOW +:+ "Import: " +:+ format_opt module +:+ "." +:+ alias_name a)
          names
  | _ => []
  end.

(** The node classes [CodeStructureAnalyzer] defines a handler for. *)
Definition handled (n : node) : bool :=
  match n with
  | FunctionDef _ _ _ _ _ _ | ClassDef _ _ _ _ _ _ | Import _ | ImportFrom _ _ _ => true
  | _ => false
  end.

(** More concrete inputs. *)
Module Inputs.
Import Sample.

(** A module with a nested function, a method, a plain and a from-import. *)
Definition nested : node :=
  Module [Import [Alias "a.b" None; Alias "numpy" (Some "np")];
          def "outer" [Str "Outer."; def "inner" [Pass]];
          class "K" [Str ""; def "method" [ImportFrom (Some "x") [Alias "y" None] 0]]].

(** Code without definitions or imports: [x = 1; print(x)], in outline. *)
Definition plain : node :=
  Module [Other "Assign" [Other "Name" []; Constant (CInt 1)];
          Expr (Other "Call" [Other "Name" []; Other "Name" []])].

Definition earlier : vstate :=
  VState (Analyzer [("kept", Some "old")] [("Base", None)] {["sys"]}) [Print "before"].

(** The scenario text in a file, and the analyzer it leads to. *)
Definition scenario_files : filesystem := files [("t.py", scenario_source)].
Definition scenario_result : analyzer :=
  Analyzer [("foo", Some "doc")] [("Bar", None)] {["os"]}.

End Inputs.

(** ** Dictionaries: lookup, keys, uniqueness *)

Section dict_facts.
Context {V : Type}.
Implicit Types (d : dict V) (k : string) (v : V).

Lemma dict_get_set d k v k' :
  dict_get (dict_set d k v) k' = if decide (k = k') then Some v else dict_get d k'.
Proof.
  induction d as [|[k0 v0] d IH]; simpl.
  - repeat case_decide; congruence.
  - destruct (decide (k0 = k)) as [->|Hne]; simpl.
    + repeat case_decide; congruence.
    + rewrite IH. repeat case_decide; congruence.
Qed.

Lemma dict_keys_set d k v k' :
  k' ∈ dict_keys (dict_set d k v) ↔ k' = k ∨ k' ∈ dict_keys d.
Proof.
  unfold dict_keys. induction d as [|[k0 v0] d IH]; simpl.
  - rewrite list_elem_of_singleton, elem_of_nil. tauto.
  - destruct (decide (k0 = k)) as [->|Hne]; simpl.
    + rewrite !elem_of_cons. tauto.
    + rewrite !elem_of_cons, IH. tauto.
Qed.

Lemma dict_keys_set_NoDup d k v :
  NoDup (dict_keys d) → NoDup (dict_keys (dict_set d k v)).
Proof.
  unfold dict_keys. induction d as [|[k0 v0] d IH]; simpl; intros Hnd.
  - apply NoDup_singleton.
  - apply NoDup_cons in Hnd as [Hk0 Hnd].
    destruct (decide (k0 = k)) as [->|Hne]; simpl.
    + by apply NoDup_cons.
    + apply NoDup_cons. split; [|by apply IH].
      intros Hin. apply (dict_keys_set d k v k0) in Hin as [?|?]; done.
Qed.

Lemma dict_get_is_Some d k : is_Some (dict_get d k) ↔ k ∈ dict_keys d.
Proof.
  unfold dict_keys. induction d as [|[k0 v0] d IH]; simpl.
  - split; [intros [? ?]; discriminate | intros ?%elem_of_nil; done].
  - destruct (decide (k0 = k)) as [->|Hne].
    + split; [intros _; apply elem_of_cons; by left | eauto].
    + rewrite IH, elem_of_cons. simpl. split; [tauto | intros [?|?]; [congruence|done]].
Qed.

Lemma dict_count_notin d k : k ∉ dict_keys d → dict_count d k = 0.
Proof.
  unfold dict_keys, dict_count. induction d as [|[k0 v0] d IH]; simpl; [done|].
  intros Hni. rewrite filter_cons. simpl.
  apply not_elem_of_cons in Hni as [Hne Hni].
  rewrite decide_False by congruence. by apply IH.
Qed.

Lemma dict_count_NoDup d k :
  NoDup (dict_keys d) → k ∈ dict_keys d → dict_count d k = 1.
Proof.
  unfold dict_keys, dict_count. induction d as [|[k0 v0] d IH]; simpl.
  - intros _ ?%elem_of_nil. done.
  - intros [Hk0 Hnd]%NoDup_cons Hin. rewrite filter_cons. simpl.
    destruct (decide (k0 = k)) as [->|Hne]; simpl.
    + f_equal. by apply dict_count_notin.
    + apply IH; [done|]. apply elem_of_cons in Hin as [?|?]; [congruence|done].
Qed.
End dict_facts.

(** ** The traversal visits a node, then its children *)

Lemma node_children_ind (P : node → Prop) :
  (∀ n, Forall P (children n) → P n) → ∀ n, P n.
Proof.
  intros HP. fix IH 1. intros n. apply HP.
  pose (all := fix all (l : list node) : Forall P l :=
          match l with
          | [] => Forall_nil_2 P
          | c :: l' => Forall_cons_2 P c l' (IH c) (all l')
          end).
  destruct n as [body|name args body decs returns tps|name args body decs returns tps
                |name bases keywords body decs tps|names|module names level|value|value
                |kind cs]; simpl.
  - apply all.
  - constructor; [apply IH|].
    apply Forall_app_2; [apply all|]. apply Forall_app_2; [apply all|].
    apply Forall_app_2; [|apply all].
    destruct returns as [r|]; simpl; constructor; [apply IH|constructor].
  - constructor; [apply IH|].
    apply Forall_app_2; [apply all|]. apply Forall_app_2; [apply all|].
    apply Forall_app_2; [|apply all].
    destruct returns as [r|]; simpl; constructor; [apply IH|constructor].
  - repeat apply Forall_app_2; apply all.
  - constructor.
  - constructor.
  - constructor; [apply IH|constructor].
  - constructor.
  - apply all.
Qed.

Section traversal.
Context `{Runtime}.

Lemma visit_unfold n st :
  visit n st = foldl (λ st c, visit c st) (enter n st) (children n).
Proof.
  destruct n as [body|name args body decs returns tps|name args body decs returns tps
                |name bases keywords body decs tps|names|module names level|value|value
                |kind cs]; simpl; try reflexivity.
  - unfold visit_FunctionDef. rewrite !foldl_app. by destruct returns.
  - rewrite !foldl_app. by destruct returns.
  - unfold visit_ClassDef. by rewrite !foldl_app.
Qed.

Lemma visit_order_unfold n :
  visit_order n = n :: flat_map visit_order (children n).
Proof.
  destruct n as [body|name args body decs returns tps|name args body decs returns tps
                |name bases keywords body decs tps|names|module names level|value|value
                |kind cs]; simpl; rewrite ?flat_map_app; try reflexivity.
  - destruct returns; simpl; by rewrite ?app_nil_r.
  - destruct returns; simpl; by rewrite ?app_nil_r.
  - by rewrite app_nil_r.
Qed.

(** The traversal runs the handlers of the nodes of [visit_order], in that
    order. *)
Lemma visit_as_fold n :
  ∀ st, visit n st = foldl (λ st m, enter m st) st (visit_order n).
Proof.
  induction n as [n IH] using node_children_ind. intros st.
  rewrite visit_unfold, visit_order_unfold. simpl.
  generalize (enter n st). clear st.
  induction IH as [|c cs Hc _ IHcs]; intros st; simpl; [done|].
  by rewrite foldl_app, Hc, IHcs.
Qed.

Lemma visit_order_subnode n tree : n ∈ visit_order tree ↔ subnode n tree.
Proof.
  split.
  - revert n. induction tree as [tree IH] using node_children_ind. intros n.
    rewrite visit_order_unfold, elem_of_cons, list_elem_of_In, in_flat_map.
    intros [->|(c & Hc & Hn)]; [constructor|].
    apply list_elem_of_In in Hc, Hn. rewrite Forall_forall in IH.
    eapply subnode_child; eauto.
  - induction 1 as [n|n c tree Hc _ IH]; rewrite visit_order_unfold.
    + apply elem_of_cons. by left.
    + apply elem_of_cons. right. apply list_elem_of_In, in_flat_map.
      exists c. by rewrite <- !list_elem_of_In.
Qed.
End traversal.

(** ** Assignments in sequence *)

Section dict_set_all_facts.
Context {V : Type}.
Implicit Types (d : dict V) (es : list (string * V)).

Lemma dict_set_all_keys es : ∀ d k,
  k ∈ dict_keys (dict_set_all d es) ↔ k ∈ dict_keys d ∨ k ∈ es.*1.
Proof.
  unfold dict_set_all.
  induction es as [|[k0 v0] es IH]; intros d k; simpl.
  - rewrite elem_of_nil. tauto.
  - rewrite IH, dict_keys_set, elem_of_cons. tauto.
Qed.

Lemma dict_set_all_NoDup es : ∀ d,
  NoDup (dict_keys d) → NoDup (dict_keys (dict_set_all d es)).
Proof.
  unfold dict_set_all.
  induction es as [|[k0 v0] es IH]; intros d Hnd; simpl; [done|].
  by apply IH, dict_keys_set_NoDup.
Qed.

Lemma dict_set_all_get_notin es : ∀ d k,
  k ∉ es.*1 → dict_get (dict_set_all d es) k = dict_get d k.
Proof.
  unfold dict_set_all.
  induction es as [|[k0 v0] es IH]; intros d k Hni; simpl; [done|].
  simpl in Hni. apply not_elem_of_cons in Hni as [Hne Hni].
  rewrite IH by done. rewrite dict_get_set. by rewrite decide_False.
Qed.

(** The last assignment to a key decides its value. *)
Lemma dict_set_all_get_last d pre k v post :
  k ∉ post.*1 → dict_get (dict_set_all d (pre ++ (k, v) :: post)) k = Some v.
Proof.
  intros Hni.
  replace (dict_set_all d (pre ++ (k, v) :: post))
    with (dict_set_all (dict_set (dict_set_all d pre) k v) post)
    by (unfold dict_set_all; by rewrite foldl_app).
  rewrite dict_set_all_get_notin by done.
  rewrite dict_get_set. by rewrite decide_True.
Qed.
End dict_set_all_facts.

(** ** What the handlers do to the analyzer *)

Section analyzer_facts.
Context `{Runtime}.

Lemma self_add_dependencies (key : alias → string) names : ∀ st,
  self (foldl (λ st a, add_dependency (key a) st) st names)
  = Analyzer (functions (self st)) (classes (self st))
             (list_to_set (map key names) ∪ dependencies (self st)).
Proof.
  induction names as [|a names IH]; intros st; simpl.
  - destruct st as [[f c d] tr]; simpl. f_equal. set_solver.
  - rewrite IH. simpl. f_equal. set_solver.
Qed.

Lemma self_enter n st : self (enter n st) = record n (self st).
Proof.
  destruct st as [[f c d] tr].
  destruct n; simpl; unfold record; simpl; try (f_equal; set_solver).
  - unfold visit_FunctionDef. simpl. destruct (truthy _); simpl; f_equal; set_solver.
  - unfold visit_ClassDef. simpl. destruct (truthy _); simpl; f_equal; set_solver.
  - unfold visit_Import. by rewrite self_add_dependencies.
  - unfold visit_ImportFrom. by rewrite self_add_dependencies.
Qed.

Lemma self_enter_all l : ∀ st,
  self (foldl (λ st m, enter m st) st l) = foldl (λ a m, record m a) (self st) l.
Proof.
  induction l as [|n l IH]; intros st; simpl; [done|].
  by rewrite IH, self_enter.
Qed.

(** The analyzer after a visit: the nodes of the traversal recorded in
    order, whatever the console held. *)
Lemma self_visit tree st :
  self (visit tree st) = foldl (λ a m, record m a) (self st) (visit_order tree).
Proof. by rewrite visit_as_fold, self_enter_all. Qed.

Lemma functions_record_all l : ∀ a,
  functions (foldl (λ a m, record m a) a l)
  = dict_set_all (functions a) (omap function_entry l).
Proof.
  induction l as [|n l IH]; intros a; simpl; [done|].
  rewrite IH. unfold record. simpl.
  by destruct (function_entry n) as [[k v]|].
Qed.

Lemma classes_record_all l : ∀ a,
  classes (foldl (λ a m, record m a) a l)
  = dict_set_all (classes a) (omap class_entry l).
Proof.
  induction l as [|n l IH]; intros a; simpl; [done|].
  rewrite IH. unfold record. simpl.
  by destruct (class_entry n) as [[k v]|].
Qed.

Lemma dependencies_record_all l : ∀ a,
  dependencies (foldl (λ a m, record m a) a l)
  = list_to_set (flat_map import_keys l) ∪ dependencies a.
Proof.
  induction l as [|n l IH]; intros a; simpl; [set_solver|].
  rewrite IH. simpl. rewrite list_to_set_app_L. set_solver.
Qed.
End analyzer_facts.

(** ** The entries the traversal records *)

Section entries.
Context `{Runtime}.

Lemma function_entry_name n :
  function_name n = fst <$> function_entry n.
Proof. by destruct n. Qed.

Lemma class_entry_name n :
  class_name n = fst <$> class_entry n.
Proof. by destruct n. Qed.

Lemma elem_of_function_entries l name :
  name ∈ (omap function_entry l).*1 ↔ ∃ n, n ∈ l ∧ function_name n = Some name.
Proof.
  rewrite list_elem_of_fmap. setoid_rewrite list_elem_of_omap. split.
  - intros ([k v] & -> & n & Hn & He). exists n. split; [done|].
    by rewrite function_entry_name, He.
  - intros (n & Hn & Hname). rewrite function_entry_name in Hname.
    destruct (function_entry n) as [[k v]|] eqn:He; [|done].
    exists (k, v). split; [by injection Hname|eauto].
Qed.

Lemma elem_of_class_entries l name :
  name ∈ (omap class_entry l).*1 ↔ ∃ n, n ∈ l ∧ class_name n = Some name.
Proof.
  rewrite list_elem_of_fmap. setoid_rewrite list_elem_of_omap. split.
  - intros ([k v] & -> & n & Hn & He). exists n. split; [done|].
    by rewrite class_entry_name, He.
  - intros (n & Hn & Hname). rewrite class_entry_name in Hname.
    destruct (class_entry n) as [[k v]|] eqn:He; [|done].
    exists (k, v). split; [by injection Hname|eauto].
Qed.

Lemma extracted_functions tree tr :
  functions (extracted tree tr) = dict_set_all [] (omap function_entry (visit_order tree)).
Proof. unfold extracted. by rewrite self_visit, functions_record_all. Qed.

Lemma extracted_classes tree tr :
  classes (extracted tree tr) = dict_set_all [] (omap class_entry (visit_order tree)).
Proof. unfold extracted. by rewrite self_visit, classes_record_all. Qed.

Lemma extracted_dependencies tree tr :
  dependencies (extracted tree tr) = list_to_set (flat_map import_keys (visit_order tree)).
Proof.
  unfold extracted. rewrite self_visit, dependencies_record_all. simpl.
  by rewrite (right_id_L ∅ (∪)).
Qed.

(** The definition of a name that no later node of the traversal repeats
    is the one the map holds, once. *)
Lemma last_entry_wins (entry : node → option (string * option string))
    pre d post name doc :
  entry d = Some (name, doc) →
  (∀ m, m ∈ post → fst <$> entry m ≠ Some name) →
  let d' := dict_set_all [] (omap entry (pre ++ d :: post)) in
  dict_get d' name = Some doc ∧ dict_count d' name = 1.
Proof.
  intros Hd Hpost. simpl.
  assert (Hni : name ∉ (omap entry post).*1).
  { rewrite list_elem_of_fmap. intros ([k v] & -> & Hin).
    apply list_elem_of_omap in Hin as (m & Hm & He).
    apply (Hpost m Hm). by rewrite He. }
  rewrite omap_app. simpl. rewrite Hd. split.
  - by apply dict_set_all_get_last.
  - apply dict_count_NoDup.
    + apply dict_set_all_NoDup. constructor.
    + apply dict_set_all_keys. right.
      rewrite fmap_app, elem_of_app, fmap_cons, elem_of_cons. tauto.
Qed.
End entries.

(** ** The driver, step by step *)

Section driver_facts.
Context `{Runtime}.

Lemma call_on_new (f : vstate → vstate) hp tr :
  call_on (length hp) f (Process (hp ++ [CodeStructureAnalyzer_init]) tr)
  = Process (hp ++ [self (f (VState CodeStructureAnalyzer_init tr))])
            (trace (f (VState CodeStructureAnalyzer_init tr))).
Proof.
  unfold call_on. simpl. rewrite list_lookup_middle by done.
  rewrite (insert_app_r_alt hp) by done.
  by replace (length hp - length hp) with 0 by lia.
Qed.

Lemma analyze_file_read_error fs file_path e p :
  fs file_path = inl e →
  analyze_file fs file_path p
  = (Process (heap p) (console p ++ [Open file_path]), Raised e).
Proof. intros Hfs. unfold analyze_file. by rewrite Hfs. Qed.

Lemma analyze_file_syntax_error fs file_path code p :
  fs file_path = inr code → ast_parse code = None →
  analyze_file fs file_path p
  = (Process (heap p) (console p ++ [Open file_path]),
     Raised (Exception "SyntaxError")).
Proof. intros Hfs Hparse. unfold analyze_file. by rewrite Hfs, Hparse. Qed.

Lemma analyze_file_overflow fs file_path code tree k p :
  fs file_path = inr code → ast_parse code = Some tree →
  traversal_overflow tree = Some k →
  let st := foldl (λ st m, enter m st)
                  (VState CodeStructureAnalyzer_init (console p ++ [Open file_path]))
                  (take k (visit_order tree)) in
  analyze_file fs file_path p
  = (Process (heap p ++ [self st]) (trace st), Raised (Exception "RecursionError")).
Proof.
  intros Hfs Hparse Hover. unfold analyze_file, new_analyzer.
  rewrite Hfs, Hparse, Hover. simpl. by rewrite call_on_new.
Qed.

Lemma analyze_file_complete fs file_path code tree p :
  fs file_path = inr code → ast_parse code = Some tree →
  traversal_overflow tree = None →
  let st := visit tree (VState CodeStructureAnalyzer_init (console p ++ [Open file_path])) in
  let tr := foldl (λ tr d, tr ++ [Print (TAB +:+ d)])
                  (trace st ++ [Print (NL +:+ Fore_RED +:+ "Dependencies:")])
                  (iterate (dependencies (self st))) in
  analyze_file fs file_path p
  = (Process (heap p ++ [self st]) (generate_pdf_report (self st) file_path tr).1,
     (generate_pdf_report (self st) file_path tr).2).
Proof.
  intros Hfs Hparse Hover. unfold analyze_file, new_analyzer.
  rewrite Hfs, Hparse, Hover. simpl. rewrite call_on_new. simpl.
  rewrite list_lookup_middle by done. simpl.
  by destruct (generate_pdf_report _ _ _).
Qed.

(** The heap after a run: the analyzers of before, and the one the run
    created when the file read and parsed. *)
Lemma analyze_file_heap fs file_path p :
  heap (analyze_file fs file_path p).1
  = heap p
    ++ match fs file_path with
       | inr code =>
           match ast_parse code with
           | Some tree =>
               [foldl (λ a m, record m a) CodeStructureAnalyzer_init (traversed tree)]
           | None => []
           end
       | inl _ => []
       end.
Proof.
  destruct (fs file_path) as [e|code] eqn:Hfs.
  - rewrite (analyze_file_read_error _ _ e) by done. simpl. by rewrite app_nil_r.
  - destruct (ast_parse code) as [tree|] eqn:Hparse.
    + unfold traversed. destruct (traversal_overflow tree) as [k|] eqn:Hover.
      * rewrite (analyze_file_overflow _ _ code tree k) by done. simpl.
        by rewrite self_enter_all.
      * rewrite (analyze_file_complete _ _ code tree) by done. simpl.
        by rewrite self_visit.
    + rewrite (analyze_file_syntax_error _ _ code) by done. simpl.
      by rewrite app_nil_r.
Qed.

(** The extraction does not read the console. *)
Lemma extracted_console tree tr1 tr2 : extracted tree tr1 = extracted tree tr2.
Proof. unfold extracted. by rewrite !self_visit. Qed.
End driver_facts.

(** ** Imports *)

(** C1: for a from-import statement [from x import y, z] that the extractor
    visits (at any place of the tree), the dependency set afterwards holds,
    for each imported symbol, the module path, a dot and the symbol's name:
    ["x.y"] and ["x.z"]. *)
Theorem C1_from_import_module_dot_symbol `{Runtime} tree st x names level a :
  subnode (ImportFrom (Some x) names level) tree →
  a ∈ names →
  x +:+ "." +:+ alias_name a ∈ dependencies (self (visit tree st)).
Proof.
  intros Hsub Ha. rewrite self_visit, dependencies_record_all.
  apply elem_of_union_l, elem_of_list_to_set, list_elem_of_In, in_flat_map.
  exists (ImportFrom (Some x) names level). split.
  - by apply list_elem_of_In, visit_order_subnode.
  - simpl. apply in_map_iff. exists a. split; [done|]. by apply list_elem_of_In.
Qed.

(** C3: for a from-import statement without a module path ([from . import y]),
    the extractor adds the key made of the text ["None."] and the symbol's
    name. *)
Theorem C3_module_less_import_None_key `{Runtime} tree st names level a :
  subnode (ImportFrom None names level) tree →
  a ∈ names →
  "None." +:+ alias_name a ∈ dependencies (self (visit tree st)).
Proof.
  intros Hsub Ha. rewrite self_visit, dependencies_record_all.
  apply elem_of_union_l, elem_of_list_to_set, list_elem_of_In, in_flat_map.
  exists (ImportFrom None names level). split.
  - by apply list_elem_of_In, visit_order_subnode.
  - simpl. apply in_map_iff. exists a. split; [done|]. by apply list_elem_of_In.
Qed.

(** C10: an import that renames with [as] records the imported name, never
    the alias.  What visiting an import node adds is computed from the [name]
    fields alone; [import numpy as np] yields ["numpy"] (and not ["np"]),
    [from x import y as z] yields ["x.y"] (and not ["x.z"], ["z"]). *)
Theorem C10_as_name_ignored `{Runtime} :
  (∀ names st,
     dependencies (self (visit (Import names) st))
     = list_to_set (map alias_name names) ∪ dependencies (self st)) ∧
  (∀ module names level st,
     dependencies (self (visit (ImportFrom module names level) st))
     = list_to_set (map (λ a, format_opt module +:+ "." +:+ alias_name a) names)
       ∪ dependencies (self st)) ∧
  (∀ tr, let deps := dependencies (extracted (Module [Import [Alias "numpy" (Some "np")]]) tr) in
         (deps = {["numpy"]}) ∧ "np" ∉ deps) ∧
  (∀ tr, let deps := dependencies
                       (extracted (Module [ImportFrom (Some "x") [Alias "y" (Some "z")] 0]) tr) in
         (deps = {["x.y"]}) ∧ ("x.z" ∉ deps) ∧ ("z" ∉ deps)).
Proof.
  split; [|split; [|split]].
  - intros names st. simpl. unfold visit_Import. by rewrite self_add_dependencies.
  - intros module names level st. simpl. unfold visit_ImportFrom.
    by rewrite self_add_dependencies.
  - intros tr. cbv zeta. rewrite extracted_dependencies. simpl.
    rewrite (right_id_L ∅ (∪)). split; [done|].
    by rewrite elem_of_singleton.
  - intros tr. cbv zeta. rewrite extracted_dependencies. simpl.
    rewrite (right_id_L ∅ (∪)). split; [done|].
    by rewrite !elem_of_singleton.
Qed.

(** ** Definitions *)

(** C2: after a run, a name is a key of the functions map exactly when a
    function-definition node of that name occurs in the tree, at any depth,
    and a key of the classes map exactly when a class-definition node of
    that name does; the maps are flat (name to docstring). *)
Theorem C2_keys_are_the_visited_definitions `{Runtime} tree tr name :
  (name ∈ dict_keys (functions (extracted tree tr))
   ↔ ∃ n, subnode n tree ∧ function_name n = Some name) ∧
  (name ∈ dict_keys (classes (extracted tree tr))
   ↔ ∃ n, subnode n tree ∧ class_name n = Some name).
Proof.
  rewrite extracted_functions, extracted_classes, !dict_set_all_keys.
  rewrite elem_of_function_entries, elem_of_class_entries.
  setoid_rewrite visit_order_subnode. unfold dict_keys. simpl.
  rewrite elem_of_nil. tauto.
Qed.

(** C9: an [async def] adds no entry.  Visiting the node runs no handler, only
    the traversal of its children; and its name is a key of the functions
    (classes) map only if some plain function (class) definition of the tree
    has that name. *)
Theorem C9_async_def_not_recorded `{Runtime} tree tr name args body decs returns tps :
  let d := AsyncFunctionDef name args body decs returns tps in
  subnode d tree →
  (∀ st, visit d st = foldl (λ st c, visit c st) st (children d)) ∧
  ((∀ n, subnode n tree → function_name n ≠ Some name) →
   name ∉ dict_keys (functions (extracted tree tr))) ∧
  ((∀ n, subnode n tree → class_name n ≠ Some name) →
   name ∉ dict_keys (classes (extracted tree tr))).
Proof.
  intros d _. split; [|split].
  - intros st. by rewrite visit_unfold.
  - intros Hnone Hin.
    rewrite extracted_functions, dict_set_all_keys, elem_of_function_entries in Hin.
    destruct Hin as [Hin|(n & Hn & Hname)]; [by apply elem_of_nil in Hin|].
    apply visit_order_subnode in Hn. by apply (Hnone n).
  - intros Hnone Hin.
    rewrite extracted_classes, dict_set_all_keys, elem_of_class_entries in Hin.
    destruct Hin as [Hin|(n & Hn & Hname)]; [by apply elem_of_nil in Hin|].
    apply visit_order_subnode in Hn. by apply (Hnone n).
Qed.

(** C5: when a function (class) name is defined several times, the functions
    (classes) map holds exactly one entry for it, and its value is the
    docstring of the definition visited last: [d] is a definition of [name]
    in the traversal that no later node redefines. *)
Theorem C5_last_definition_wins `{Runtime} tree tr pre d post name doc :
  visit_order tree = pre ++ d :: post →
  (function_entry d = Some (name, doc) →
   (∀ m, m ∈ post → function_name m ≠ Some name) →
   dict_get (functions (extracted tree tr)) name = Some doc
   ∧ dict_count (functions (extracted tree tr)) name = 1) ∧
  (class_entry d = Some (name, doc) →
   (∀ m, m ∈ post → class_name m ≠ Some name) →
   dict_get (classes (extracted tree tr)) name = Some doc
   ∧ dict_count (classes (extracted tree tr)) name = 1).
Proof.
  intros Horder. split; intros Hd Hpost.
  - rewrite extracted_functions, Horder.
    apply (last_entry_wins function_entry); [done|].
    intros m Hm. rewrite <- function_entry_name. by apply Hpost.
  - rewrite extracted_classes, Horder.
    apply (last_entry_wins class_entry); [done|].
    intros m Hm. rewrite <- class_entry_name. by apply Hpost.
Qed.

(** C6: the maps tell a missing docstring from an empty one.  For the
    definition of [name] visited last, the stored value is the absent marker
    [None] when the body has no docstring statement, and the empty string
    when the docstring is the empty string ([cleandoc] keeping it empty);
    the two stored values differ. *)
Theorem C6_absent_docstring_is_not_empty `{Runtime} tree tr pre d post name
    args body decs returns tps bases keywords :
  cleandoc "" = "" →
  visit_order tree = pre ++ d :: post →
  (d = FunctionDef name args body decs returns tps →
   (∀ m, m ∈ post → function_name m ≠ Some name) →
   let stored := dict_get (functions (extracted tree tr)) name in
   (docstring_text body = None → stored = Some None) ∧
   (docstring_text body = Some "" → stored = Some (Some "")) ∧
   Some (None : option string) ≠ Some (Some "")) ∧
  (d = ClassDef name bases keywords body decs tps →
   (∀ m, m ∈ post → class_name m ≠ Some name) →
   let stored := dict_get (classes (extracted tree tr)) name in
   (docstring_text body = None → stored = Some None) ∧
   (docstring_text body = Some "" → stored = Some (Some "")) ∧
   Some (None : option string) ≠ Some (Some "")).
Proof.
  intros Hclean Horder.
  assert (Hdoc : (docstring_text body = None → get_docstring body = None) ∧
                 (docstring_text body = Some "" → get_docstring body = Some "")).
  { unfold docstring_text, get_docstring.
    destruct body as [|[| | | | | |[| | | | | | |[]|]| |] rest];
      split; intros Hb; try done.
    injection Hb as ->. by rewrite Hclean. }
  destruct Hdoc as [Hnone Hempty].
  split; intros -> Hpost stored.
  - assert (Hstored : stored = Some (get_docstring body)).
    { unfold stored. rewrite extracted_functions, Horder.
      apply (last_entry_wins function_entry); [done|].
      intros m Hm. rewrite <- function_entry_name. by apply Hpost. }
    rewrite Hstored. split; [|split]; [intros Hb; by rewrite Hnone
                                      |intros Hb; by rewrite Hempty|done].
  - assert (Hstored : stored = Some (get_docstring body)).
    { unfold stored. rewrite extracted_classes, Horder.
      apply (last_entry_wins class_entry); [done|].
      intros m Hm. rewrite <- class_entry_name. by apply Hpost. }
    rewrite Hstored. split; [|split]; [intros Hb; by rewrite Hnone
                                      |intros Hb; by rewrite Hempty|done].
Qed.

(** ** Runs *)

(** C4: two runs on the same source text create analyzers with the same
    contents (functions, classes, dependencies), whatever the processes they
    run in hold: other analyzer objects, earlier console output, other files.
    A run creates its own analyzer object and leaves those of earlier runs
    as they were, so a second run that follows the first in the same process
    gives the same contents again. *)
Theorem C4_extraction_deterministic `{Runtime} fs1 fs2 path1 path2 code p1 p2 :
  fs1 path1 = inr code → fs2 path2 = inr code →
  let after1 := (analyze_file fs1 path1 p1).1 in
  let after2 := (analyze_file fs2 path2 p2).1 in
  let again := (analyze_file fs1 path1 after1).1 in
  heap after1 !! length (heap p1) = heap after2 !! length (heap p2)
  ∧ (∀ l, l < length (heap p1) → heap after1 !! l = heap p1 !! l)
  ∧ heap again !! length (heap after1) = heap after1 !! length (heap p1).
Proof.
  intros Hfs1 Hfs2 after1 after2 again. unfold again, after2, after1.
  rewrite !analyze_file_heap, Hfs1, Hfs2.
  split; [|split].
  - rewrite !lookup_app_r, !Nat.sub_diag by done. done.
  - intros l Hl. by rewrite lookup_app_l.
  - rewrite !lookup_app_r, !Nat.sub_diag by done. done.
Qed.

(** C7: when the text of the file does not parse, the run ends with the
    uncaught syntax error: no report is built and the exit status is not
    zero. *)
Theorem C7_syntax_error_no_report `{Runtime} fs prog file_path code :
  fs file_path = inr code → ast_parse code = None →
  let r := main fs prog [file_path] in
  run_outcome r = Raised (Exception "SyntaxError") ∧
  (∀ output_file title data, Build output_file title data ∉ run_trace r) ∧
  exit_status (run_outcome r) ≠ 0%Z.
Proof.
  intros Hfs Hparse r. unfold r, main.
  rewrite (analyze_file_syntax_error _ _ code) by done. simpl.
  split; [done|]. split; [|done].
  intros output_file title data Hin.
  apply elem_of_cons in Hin as [?|Hin]; [done|by apply elem_of_nil in Hin].
Qed.

(** C8: with any number of arguments other than one, the program prints the
    usage line and exits with status 1; it opens no file and builds no
    report. *)
Theorem C8_usage_error `{Runtime} fs prog args :
  length args ≠ 1 →
  let r := main fs prog args in
  r = Run [Print ("Usage: " +:+ prog +:+ " <path_to_python_file>")]
          (Raised (SystemExit 1)) None ∧
  exit_status (run_outcome r) = 1%Z ∧
  (∀ path, Open path ∉ run_trace r) ∧
  (∀ output_file title data, Build output_file title data ∉ run_trace r).
Proof.
  intros Hlen r.
  assert (Hr : r = Run [Print ("Usage: " +:+ prog +:+ " <path_to_python_file>")]
                       (Raised (SystemExit 1)) None).
  { unfold r, main. by destruct args as [|file_path [|second rest]]. }
  rewrite Hr. simpl. split; [done|]. split; [done|].
  split; intros; rewrite list_elem_of_singleton; done.
Qed.

(** ** The theorems at concrete inputs *)

Lemma C1_witness :
  "x.y" ∈ dependencies (self (@visit Witness.rt (Module [Witness.from_x_import_y_z])
                                Witness.fresh))
  ∧ "x.z" ∈ dependencies (self (@visit Witness.rt (Module [Witness.from_x_import_y_z])
                                  Witness.fresh)).
Proof.
  assert (Hsub : subnode Witness.from_x_import_y_z (Module [Witness.from_x_import_y_z])).
  { eapply subnode_child; [|apply subnode_here]. simpl. apply elem_of_cons. by left. }
  split.
  - apply (@C1_from_import_module_dot_symbol Witness.rt (Module [Witness.from_x_import_y_z])
             Witness.fresh "x" [Alias "y" None; Alias "z" None] 0 (Alias "y" None) Hsub).
    apply elem_of_cons. by left.
  - apply (@C1_from_import_module_dot_symbol Witness.rt (Module [Witness.from_x_import_y_z])
             Witness.fresh "x" [Alias "y" None; Alias "z" None] 0 (Alias "z" None) Hsub).
    apply elem_of_cons. right. apply elem_of_cons. by left.
Defined.

Lemma C3_witness :
  "None.y" ∈ dependencies (self (@visit Witness.rt (Module [Witness.from_dot_import_y])
                                   Witness.fresh)).
Proof.
  apply (@C3_module_less_import_None_key Witness.rt (Module [Witness.from_dot_import_y])
           Witness.fresh [Alias "y" None] 1 (Alias "y" None)).
  - eapply subnode_child; [|apply subnode_here]. simpl. apply elem_of_cons. by left.
  - apply elem_of_cons. by left.
Defined.

Lemma C4_witness :
  let fs1 := Sample.files [("a.py", Sample.scenario_source)] in
  let fs2 := Sample.files [("a_analysis_report.pdf", "%PDF"); ("a.py", Sample.scenario_source)] in
  heap (@analyze_file Witness.rt fs1 "a.py" (Process [] [])).1 !! 0
  = heap (@analyze_file Witness.rt fs2 "a.py" Witness.busy).1 !! 1.
Proof.
  intros fs1 fs2.
  assert (H1 : fs1 "a.py" = inr Sample.scenario_source) by (vm_compute; reflexivity).
  assert (H2 : fs2 "a.py" = inr Sample.scenario_source) by (vm_compute; reflexivity).
  exact (proj1 (@C4_extraction_deterministic Witness.rt fs1 fs2 "a.py" "a.py"
                  Sample.scenario_source (Process [] []) Witness.busy H1 H2)).
Defined.

Lemma C5_witness :
  dict_get (functions (@extracted Witness.rt Witness.twice [])) "f" = Some (Some "second")
  ∧ dict_count (functions (@extracted Witness.rt Witness.twice [])) "f" = 1.
Proof.
  apply (@C5_last_definition_wins Witness.rt Witness.twice []
           [Witness.twice; Sample.def "f" [Sample.Str "first"]; Sample.arguments;
            Sample.Str "first"; Constant (CStr "first");
            Sample.class "C" [Sample.Pass; Witness.second_f]; Sample.Pass]
           Witness.second_f
           [Sample.arguments; Sample.Str "second"; Constant (CStr "second")]
           "f" (Some "second")).
  - reflexivity.
  - reflexivity.
  - intros m Hm.
    repeat (apply elem_of_cons in Hm as [->|Hm]; [done|]).
    by apply elem_of_nil in Hm.
Defined.

Lemma C6_witness :
  dict_get (functions (@extracted Witness.rt (Module [Sample.def "f" [Sample.Pass]]) [])) "f"
  = Some None
  ∧ dict_get (functions (@extracted Witness.rt (Module [Sample.def "f" [Sample.Str ""]]) [])) "f"
    = Some (Some "").
Proof.
  split.
  - apply (@C6_absent_docstring_is_not_empty Witness.rt
             (Module [Sample.def "f" [Sample.Pass]]) []
             [Module [Sample.def "f" [Sample.Pass]]] (Sample.def "f" [Sample.Pass])
             [Sample.arguments; Sample.Pass]
             "f" Sample.arguments [Sample.Pass] [] None [] [] []); try reflexivity.
    intros m Hm.
    repeat (apply elem_of_cons in Hm as [->|Hm]; [done|]).
    by apply elem_of_nil in Hm.
  - apply (@C6_absent_docstring_is_not_empty Witness.rt
             (Module [Sample.def "f" [Sample.Str ""]]) []
             [Module [Sample.def "f" [Sample.Str ""]]] (Sample.def "f" [Sample.Str ""])
             [Sample.arguments; Sample.Str ""; Constant (CStr "")]
             "f" Sample.arguments [Sample.Str ""] [] None [] [] []); try reflexivity.
    intros m Hm.
    repeat (apply elem_of_cons in Hm as [->|Hm]; [done|]).
    by apply elem_of_nil in Hm.
Defined.

Lemma C7_witness :
  let r := @main Witness.rt Witness.bad_files "code_analysis.py" ["bad.py"] in
  run_outcome r = Raised (Exception "SyntaxError") ∧
  (∀ output_file title data, Build output_file title data ∉ run_trace r) ∧
  exit_status (run_outcome r) ≠ 0%Z.
Proof.
  apply (@C7_syntax_error_no_report Witness.rt Witness.bad_files "code_analysis.py"
           "bad.py" "def f(:"); reflexivity.
Defined.

Lemma C8_witness :
  @main Witness.rt Witness.bad_files "code_analysis.py" []
  = Run [Print "Usage: code_analysis.py <path_to_python_file>"] (Raised (SystemExit 1)) None
  ∧ @main Witness.rt Witness.bad_files "code_analysis.py" ["a.py"; "b.py"]
    = Run [Print "Usage: code_analysis.py <path_to_python_file>"] (Raised (SystemExit 1)) None.
Proof.
  split.
  - apply (@C8_usage_error Witness.rt Witness.bad_files "code_analysis.py" []). simpl. lia.
  - apply (@C8_usage_error Witness.rt Witness.bad_files "code_analysis.py" ["a.py"; "b.py"]).
    simpl. lia.
Defined.

Lemma C9_witness :
  "f" ∉ dict_keys (functions (@extracted Witness.rt (Module [Sample.async_def "f" [Sample.Pass]]) [])).
Proof.
  apply (@C9_async_def_not_recorded Witness.rt (Module [Sample.async_def "f" [Sample.Pass]]) []
           "f" Sample.arguments [Sample.Pass] [] None []).
  - eapply subnode_child; [|apply subnode_here]. simpl. apply elem_of_cons. by left.
  - intros n Hn. apply visit_order_subnode in Hn. simpl in Hn.
    repeat (apply elem_of_cons in Hn as [->|Hn]; [done|]).
    by apply elem_of_nil in Hn.
Defined.

(** The end-to-end scenario of the specification. *)
Example scenario_run :
  @main Witness.rt (Sample.files [("t.py", Sample.scenario_source)]) "code_analysis.py" ["t.py"]
  = Run [Open "t.py";
         Print (Fore_GREEN +:+ "Function: foo"); Print (TAB +:+ "Docstring: doc");
         Print (Fore_BLUE +:+ "Class: Bar"); Print (Fore_YELLOW +:+ "Import: os");
         Print (NL +:+ Fore_RED +:+ "Dependencies:"); Print (TAB +:+ "os");
         Build "t_analysis_report.pdf" "Code Analysis Report: t.py"
           [[Some "Type"; Some "Name"; Some "Docstring"];
            [Some "Function"; Some "foo"; Some "doc"];
            [Some "Class"; Some "Bar"; None];
            [Some "Import"; Some "os"; Some ""]]]
        Returned
        (Some (Analyzer [("foo", Some "doc")] [("Bar", None)] {["os"]})).
Proof. vm_compute. reflexivity. Qed.


(** ** What the handlers print *)

Section console_facts.
Context `{Runtime}.

Lemma trace_add_dependencies (key : alias → string) names : ∀ st,
  trace (foldl (λ st a, add_dependency (key a) st) st names)
  = trace st ++ map (λ a, Print (Fore_YELLOW +:+ "Import: " +:+ key a)) names.
Proof.
  induction names as [|a names IH]; intros st; simpl.
  - by rewrite app_nil_r.
  - rewrite IH. simpl. by rewrite <- app_assoc.
Qed.

Lemma trace_enter n st :
  trace (enter n st) = trace st ++ map Print (console_lines n).
Proof.
  destruct n; simpl; rewrite ?app_nil_r; try reflexivity.
  - unfold visit_FunctionDef. simpl.
    destruct (truthy _); simpl; by rewrite <- ?app_assoc.
  - unfold visit_ClassDef. simpl.
    destruct (truthy _); simpl; by rewrite <- ?app_assoc.
  - unfold visit_Import. by rewrite trace_add_dependencies, map_map.
  - unfold visit_ImportFrom. by rewrite trace_add_dependencies, map_map.
Qed.

Lemma trace_enter_all l : ∀ st,
  trace (foldl (λ st m, enter m st) st l)
  = trace st ++ map Print (flat_map console_lines l).
Proof.
  induction l as [|n l IH]; intros st; simpl.
  - by rewrite app_nil_r.
  - by rewrite IH, trace_enter, map_app, app_assoc.
Qed.

Lemma enter_unhandled n st : handled n = false → enter n st = st.
Proof. by destruct n. Qed.

Lemma foldl_print_lines (f : string → string) l : ∀ tr : list event,
  foldl (λ tr d, tr ++ [Print (f d)]) tr l = tr ++ map (λ d, Print (f d)) l.
Proof.
  induction l as [|d l IH]; intros tr; simpl.
  - by rewrite app_nil_r.
  - by rewrite IH, <- app_assoc.
Qed.
End console_facts.

(** ** Assignments of fresh keys *)

Section dict_fresh_facts.
Context {V : Type}.
Implicit Types (d : dict V) (es : list (string * V)).

Lemma dict_set_fresh d k v : k ∉ dict_keys d → dict_set d k v = d ++ [(k, v)].
Proof.
  unfold dict_keys. induction d as [|[k0 v0] d IH]; simpl; intros Hni; [done|].
  apply not_elem_of_cons in Hni as [Hne Hni].
  rewrite decide_False by congruence. by rewrite IH.
Qed.

Lemma dict_set_all_fresh es : ∀ d,
  NoDup (dict_keys d ++ es.*1) → dict_set_all d es = d ++ es.
Proof.
  unfold dict_set_all, dict_keys.
  induction es as [|[k v] es IH]; intros d Hnd; simpl.
  - by rewrite app_nil_r.
  - simpl in Hnd. rewrite dict_set_fresh.
    + rewrite IH; [by rewrite <- app_assoc|].
      rewrite fmap_app. simpl. by rewrite <- app_assoc.
    + apply NoDup_app in Hnd as (_ & Hdisj & _). intros Hin.
      apply (Hdisj k Hin). apply elem_of_cons. by left.
Qed.

Lemma dict_set_all_get_elem es : ∀ d k v,
  dict_get (dict_set_all d es) k = Some v →
  dict_get d k = Some v ∨ (k, v) ∈ es.
Proof.
  unfold dict_set_all.
  induction es as [|[k0 v0] es IH]; intros d k v Hget; simpl in *; [by left|].
  apply IH in Hget as [Hget|Hin].
  - rewrite dict_get_set in Hget. case_decide as Hk.
    + right. apply elem_of_cons. left. congruence.
    + by left.
  - right. apply elem_of_cons. by right.
Qed.
End dict_fresh_facts.

Lemma entries_names `{Runtime} l :
  (omap function_entry l).*1 = omap function_name l
  ∧ (omap class_entry l).*1 = omap class_name l.
Proof.
  induction l as [|n l [IHf IHc]]; [done|]. simpl.
  rewrite function_entry_name, class_entry_name.
  destruct (function_entry n) as [[kf vf]|], (class_entry n) as [[kc vc]|];
    simpl; split; first [exact IHf | exact IHc | f_equal; first [exact IHf | exact IHc]].
Qed.

(** ** Further properties of the extractor *)

(** X1: for a plain import statement [import a.b, c] that the extractor
    visits, at any place of the tree, the dependency set afterwards holds the
    bare name of each imported module. *)
Theorem X1_plain_import_bare_name `{Runtime} tree st names a :
  subnode (Import names) tree →
  a ∈ names →
  alias_name a ∈ dependencies (self (visit tree st)).
Proof.
  intros Hsub Ha. rewrite self_visit, dependencies_record_all.
  apply elem_of_union_l, elem_of_list_to_set, list_elem_of_In, in_flat_map.
  exists (Import names). split.
  - by apply list_elem_of_In, visit_order_subnode.
  - simpl. apply in_map_iff. exists a. split; [done|]. by apply list_elem_of_In.
Qed.

(** X2: after a run the dependency set holds nothing but import keys: a
    string is in it exactly when it is the name of an alias of some plain
    import of the tree, or module, dot and name for an alias of some
    from-import of the tree. *)
Theorem X2_dependencies_exact `{Runtime} tree tr key :
  key ∈ dependencies (extracted tree tr) ↔
  (∃ names a, subnode (Import names) tree ∧ a ∈ names ∧ key = alias_name a) ∨
  (∃ module names level a,
     subnode (ImportFrom module names level) tree ∧ a ∈ names
     ∧ key = format_opt module +:+ "." +:+ alias_name a).
Proof.
  rewrite extracted_dependencies, elem_of_list_to_set, list_elem_of_In, in_flat_map.
  split.
  - intros (n & Hn & Hkey). apply list_elem_of_In, visit_order_subnode in Hn.
    destruct n; simpl in Hkey; try done.
    + apply in_map_iff in Hkey as (a & <- & Ha). left.
      exists names, a. by rewrite list_elem_of_In.
    + apply in_map_iff in Hkey as (a & <- & Ha). right.
      exists module, names, level, a. by rewrite list_elem_of_In.
  - intros [(names & a & Hsub & Ha & ->)|(module & names & level & a & Hsub & Ha & ->)].
    + exists (Import names). split; [by apply list_elem_of_In, visit_order_subnode|].
      simpl. apply in_map_iff. exists a. by rewrite <- list_elem_of_In.
    + exists (ImportFrom module names level).
      split; [by apply list_elem_of_In, visit_order_subnode|].
      simpl. apply in_map_iff. exists a. by rewrite <- list_elem_of_In.
Qed.

(** X3: when the function definitions of the tree have pairwise distinct
    names, the functions map lists them all, in the order the traversal meets
    them, each with its docstring; likewise for classes. *)
Theorem X3_distinct_names_in_order `{Runtime} tree tr :
  (NoDup (omap function_name (visit_order tree)) →
   functions (extracted tree tr) = omap function_entry (visit_order tree)) ∧
  (NoDup (omap class_name (visit_order tree)) →
   classes (extracted tree tr) = omap class_entry (visit_order tree)).
Proof.
  destruct (entries_names (visit_order tree)) as [Hf Hc]. split; intros Hnd.
  - rewrite extracted_functions. apply (dict_set_all_fresh _ []). simpl.
    unfold dict_keys. simpl. by rewrite Hf.
  - rewrite extracted_classes. apply (dict_set_all_fresh _ []). simpl.
    unfold dict_keys. simpl. by rewrite Hc.
Qed.

(** X4: a tree without function definitions, class definitions and imports
    changes nothing: neither the analyzer nor the console. *)
Theorem X4_no_handler_no_effect `{Runtime} tree st :
  (∀ n, subnode n tree → handled n = false) → visit tree st = st.
Proof.
  intros Hnone. rewrite visit_as_fold.
  assert (Hall : ∀ n, n ∈ visit_order tree → handled n = false).
  { intros n Hn. by apply Hnone, visit_order_subnode. }
  clear Hnone. induction (visit_order tree) as [|n l IH]; simpl; [done|].
  rewrite enter_unhandled by (apply Hall, elem_of_cons; by left).
  apply IH. intros m Hm. apply Hall, elem_of_cons. by right.
Qed.

(** X5: a visit only adds.  Starting from any analyzer, the dependencies and
    the keys of both maps that were there are still there afterwards, the
    value of a name that the tree does not define is unchanged, and the
    console keeps what it held. *)
Theorem X5_visit_only_adds `{Runtime} tree st :
  dependencies (self st) ⊆ dependencies (self (visit tree st)) ∧
  (∀ name, name ∈ dict_keys (functions (self st)) →
           name ∈ dict_keys (functions (self (visit tree st)))) ∧
  (∀ name, name ∈ dict_keys (classes (self st)) →
           name ∈ dict_keys (classes (self (visit tree st)))) ∧
  (∀ name, (∀ n, subnode n tree → function_name n ≠ Some name) →
           dict_get (functions (self (visit tree st))) name
           = dict_get (functions (self st)) name) ∧
  (∀ name, (∀ n, subnode n tree → class_name n ≠ Some name) →
           dict_get (classes (self (visit tree st))) name
           = dict_get (classes (self st)) name) ∧
  trace st `prefix_of` trace (visit tree st).
Proof.
  rewrite self_visit, dependencies_record_all, functions_record_all, classes_record_all.
  split; [apply union_subseteq_r|].
  split; [intros name Hin; apply dict_set_all_keys; by left|].
  split; [intros name Hin; apply dict_set_all_keys; by left|].
  split; [|split].
  - intros name Hnone. apply dict_set_all_get_notin.
    rewrite elem_of_function_entries. intros (n & Hn & Hname).
    apply visit_order_subnode in Hn. by apply (Hnone n).
  - intros name Hnone. apply dict_set_all_get_notin.
    rewrite elem_of_class_entries. intros (n & Hn & Hname).
    apply visit_order_subnode in Hn. by apply (Hnone n).
  - rewrite visit_as_fold, trace_enter_all. by eexists.
Qed.

(** X6: a visit keeps the keys of both maps unique: from an analyzer whose
    maps have one entry per name, it ends with such an analyzer; after a run
    no name has two entries. *)
Theorem X6_keys_stay_unique `{Runtime} tree st :
  NoDup (dict_keys (functions (self st))) →
  NoDup (dict_keys (classes (self st))) →
  NoDup (dict_keys (functions (self (visit tree st))))
  ∧ NoDup (dict_keys (classes (self (visit tree st)))).
Proof.
  intros Hf Hc. rewrite self_visit, functions_record_all, classes_record_all.
  split; by apply dict_set_all_NoDup.
Qed.

(** ** Console lines and report rows *)

Lemma append_cons c s t : String c s +:+ t = String c (s +:+ t).
Proof. reflexivity. Qed.

Lemma append_nil t : "" +:+ t = t.
Proof. reflexivity. Qed.

(** Compare two lines that begin with known characters. *)
Ltac string_eq H :=
  unfold Fore_GREEN, Fore_BLUE, Fore_YELLOW, Fore_RED, ESC, TAB, NL in H;
  repeat rewrite ?append_cons, ?append_nil in H;
  first [discriminate H | injection H as H].

Section line_facts.
Context `{Runtime}.

Lemma docstring_line_not_colored body (color line : string) :
  line ∈ (if truthy (get_docstring body)
          then [TAB +:+ "Docstring: " +:+ format_opt (get_docstring body)]
          else []) →
  line ≠ ESC +:+ color.
Proof.
  intros Hin Heq. destruct (truthy _).
  - apply list_elem_of_singleton in Hin. rewrite Hin in Heq.
    unfold TAB, ESC in Heq. rewrite !append_cons in Heq.
    injection Heq as Hchar _. vm_compute in Hchar. discriminate Hchar.
  - by apply elem_of_nil in Hin.
Qed.

Lemma function_line n name :
  Fore_GREEN +:+ "Function: " +:+ name ∈ console_lines n ↔ function_name n = Some name.
Proof.
  destruct n; simpl; rewrite ?elem_of_nil; try (split; [tauto|done]).
  - rewrite elem_of_cons. split.
    + intros [Heq|Hin]; [string_eq Heq; by subst|].
      by apply (docstring_line_not_colored _ ("[32mFunction: " +:+ name)) in Hin.
    + intros [= ->]. by left.
  - rewrite elem_of_cons. split; [|done].
    intros [Heq|Hin]; [by string_eq Heq|].
    by apply (docstring_line_not_colored _ ("[32mFunction: " +:+ name)) in Hin.
  - split; [|done]. intros Hin.
    apply list_elem_of_In, in_map_iff in Hin as (a & Heq & _). by string_eq Heq.
  - split; [|done]. intros Hin.
    apply list_elem_of_In, in_map_iff in Hin as (a & Heq & _). by string_eq Heq.
Qed.

Lemma class_line n name :
  Fore_BLUE +:+ "Class: " +:+ name ∈ console_lines n ↔ class_name n = Some name.
Proof.
  destruct n; simpl; rewrite ?elem_of_nil; try (split; [tauto|done]).
  - rewrite elem_of_cons. split; [|done].
    intros [Heq|Hin]; [by string_eq Heq|].
    by apply (docstring_line_not_colored _ ("[34mClass: " +:+ name)) in Hin.
  - rewrite elem_of_cons. split.
    + intros [Heq|Hin]; [string_eq Heq; by subst|].
      by apply (docstring_line_not_colored _ ("[34mClass: " +:+ name)) in Hin.
    + intros [= ->]. by left.
  - split; [|done]. intros Hin.
    apply list_elem_of_In, in_map_iff in Hin as (a & Heq & _). by string_eq Heq.
  - split; [|done]. intros Hin.
    apply list_elem_of_In, in_map_iff in Hin as (a & Heq & _). by string_eq Heq.
Qed.

Lemma import_line n key :
  Fore_YELLOW +:+ "Import: " +:+ key ∈ console_lines n ↔ key ∈ import_keys n.
Proof.
  destruct n; simpl; rewrite ?elem_of_nil; try tauto.
  - rewrite elem_of_cons. split; [|done].
    intros [Heq|Hin]; [by string_eq Heq|].
    by apply (docstring_line_not_colored _ ("[33mImport: " +:+ key)) in Hin.
  - rewrite elem_of_cons. split; [|done].
    intros [Heq|Hin]; [by string_eq Heq|].
    by apply (docstring_line_not_colored _ ("[33mImport: " +:+ key)) in Hin.
  - rewrite !list_elem_of_In, !in_map_iff. split.
    + intros (a & Heq & Ha). exists a. split; [|done]. by string_eq Heq.
    + intros (a & <- & Ha). by exists a.
  - rewrite !list_elem_of_In, !in_map_iff. split.
    + intros (a & Heq & Ha). exists a. split; [|done]. by string_eq Heq.
    + intros (a & <- & Ha). by exists a.
Qed.

Lemma elem_of_printed (line : string) (lines : list string) :
  Print line ∈ map Print lines ↔ line ∈ lines.
Proof.
  rewrite !list_elem_of_In, in_map_iff. split.
  - by intros (l & [= ->] & Hl).
  - intros Hl. by exists line.
Qed.

Lemma elem_of_flat_lines (P : node → Prop) line l :
  (∀ n, line ∈ console_lines n ↔ P n) →
  line ∈ flat_map console_lines l ↔ ∃ n, n ∈ l ∧ P n.
Proof.
  intros HP. rewrite list_elem_of_In, in_flat_map. split.
  - intros (n & Hn & Hline). exists n.
    by rewrite list_elem_of_In, <- HP, list_elem_of_In.
  - intros (n & Hn & Hp). exists n.
    by rewrite <- !list_elem_of_In, HP.
Qed.
End line_facts.

Lemma dict_get_elem_of {V} (d : dict V) k v :
  NoDup (dict_keys d) → (k, v) ∈ d ↔ dict_get d k = Some v.
Proof.
  unfold dict_keys. induction d as [|[k0 v0] d IH]; simpl.
  - intros _. rewrite elem_of_nil. split; [done|discriminate].
  - intros [Hk0 Hnd]%NoDup_cons. rewrite elem_of_cons, (IH Hnd).
    destruct (decide (k0 = k)) as [->|Hne].
    + split; [|intros [= ->]; by left].
      intros [[= ->]|Hget]; [done|]. exfalso. apply Hk0.
      apply (dict_get_is_Some d k). by rewrite Hget.
    + split; [|by right]. intros [[= ? ?]|Hget]; [congruence|done].
Qed.

(** X7: during a visit the console only grows, by the lines of the nodes in
    traversal order: for a function or class definition its coloured name
    line, followed by a docstring line when the docstring is neither missing
    nor empty; for an import one line per alias; nothing for other nodes. *)
Theorem X7_console_in_traversal_order `{Runtime} tree st :
  trace (visit tree st)
  = trace st ++ map Print (flat_map console_lines (visit_order tree)).
Proof. by rewrite visit_as_fold, trace_enter_all. Qed.

(** X8: the [print] calls of a run agree with its result.  A call whose
    whole text is the coloured [Function: name] is made exactly when [name]
    is a key of the functions map, one whose whole text is the coloured
    [Class: name] exactly when [name] is a key of the classes map, and one
    whose whole text is the coloured [Import: key] exactly when [key] is in
    the dependency set.  (The text of a docstring is printed inside its own
    [Docstring:] call and may itself contain such a line on the console.) *)
Theorem X8_console_agrees_with_result `{Runtime} tree name :
  let st := visit tree (VState CodeStructureAnalyzer_init []) in
  (Print (Fore_GREEN +:+ "Function: " +:+ name) ∈ trace st
   ↔ name ∈ dict_keys (functions (self st))) ∧
  (Print (Fore_BLUE +:+ "Class: " +:+ name) ∈ trace st
   ↔ name ∈ dict_keys (classes (self st))) ∧
  (Print (Fore_YELLOW +:+ "Import: " +:+ name) ∈ trace st
   ↔ name ∈ dependencies (self st)).
Proof.
  intros st. unfold st.
  rewrite visit_as_fold, trace_enter_all, self_enter_all. simpl.
  rewrite functions_record_all, classes_record_all, dependencies_record_all.
  rewrite !elem_of_printed, !dict_set_all_keys. simpl.
  rewrite elem_of_function_entries, elem_of_class_entries.
  rewrite (elem_of_flat_lines (λ n, function_name n = Some name))
    by (intros n; apply function_line).
  rewrite (elem_of_flat_lines (λ n, class_name n = Some name))
    by (intros n; apply class_line).
  rewrite (elem_of_flat_lines (λ n, name ∈ import_keys n))
    by (intros n; apply import_line).
  unfold dict_keys. simpl. rewrite elem_of_nil.
  split; [tauto|]. split; [tauto|].
  rewrite elem_of_union, elem_of_list_to_set, list_elem_of_In, in_flat_map.
  setoid_rewrite list_elem_of_In. rewrite elem_of_empty. tauto.
Qed.

(** ** Runs, event by event *)

Section run_facts.
Context `{Runtime}.

Lemma length_iterate (s : gset string) : length (iterate s) = size s.
Proof.
  unfold iterate. destruct (set_iteration s) as [l Hl]. simpl.
  by rewrite Hl.
Qed.

Lemma elem_of_iterate (s : gset string) x : x ∈ iterate s ↔ x ∈ s.
Proof.
  unfold iterate. destruct (set_iteration s) as [l Hl]. simpl.
  by rewrite Hl, elem_of_elements.
Qed.

Lemma not_built_in_prints {A} (f : A → string) (l : list A) output_file title data :
  Build output_file title data ∉ map (λ x, Print (f x)) l.
Proof. intros Hin. apply list_elem_of_In, in_map_iff in Hin as (x & [=] & _). Qed.

Lemma not_built_in_printed file_path (lines deps : list string) output_file title data :
  Build output_file title data
  ∉ Open file_path
    :: map Print lines
    ++ [Print (NL +:+ Fore_RED +:+ "Dependencies:")]
    ++ map (λ d, Print (TAB +:+ d)) deps.
Proof.
  rewrite elem_of_cons, !elem_of_app, list_elem_of_singleton.
  intros [[=]|[Hin|[[=]|Hin]]].
  - by apply (not_built_in_prints (λ x, x)) in Hin.
  - by apply not_built_in_prints in Hin.
Qed.

(** Every way a run with one argument can go. *)
Lemma main_run fs prog file_path :
  main fs prog [file_path]
  = match fs file_path with
    | inl e => Run [Open file_path] (Raised e) None
    | inr code =>
        match ast_parse code with
        | None => Run [Open file_path] (Raised (Exception "SyntaxError")) None
        | Some tree =>
            match traversal_overflow tree with
            | Some k =>
                Run (Open file_path
                     :: map Print (flat_map console_lines (take k (visit_order tree))))
                    (Raised (Exception "RecursionError"))
                    (Some (foldl (λ a m, record m a) CodeStructureAnalyzer_init
                                 (take k (visit_order tree))))
            | None =>
                let a := extracted tree [Open file_path] in
                let output_file := splitext_root file_path +:+ "_analysis_report.pdf" in
                let title := "Code Analysis Report: " +:+ basename file_path in
                let printed :=
                  Open file_path
                  :: map Print (flat_map console_lines (visit_order tree))
                  ++ [Print (NL +:+ Fore_RED +:+ "Dependencies:")]
                  ++ map (λ d, Print (TAB +:+ d)) (iterate (dependencies a)) in
                match render output_file title (report_data a) with
                | None =>
                    Run (printed ++ [Build output_file title (report_data a)])
                        Returned (Some a)
                | Some e => Run printed (Raised e) (Some a)
                end
            end
        end
    end.
Proof.
  unfold main.
  destruct (fs file_path) as [e|code] eqn:Hfs.
  - by rewrite (analyze_file_read_error _ _ e).
  - destruct (ast_parse code) as [tree|] eqn:Hparse.
    + destruct (traversal_overflow tree) as [k|] eqn:Hover.
      * rewrite (analyze_file_overflow _ _ code tree k) by done. simpl.
        by rewrite trace_enter_all, self_enter_all.
      * rewrite (analyze_file_complete _ _ code tree) by done. simpl.
        fold (extracted tree [Open file_path]).
        unfold generate_pdf_report.
        rewrite (foldl_print_lines (λ d, TAB +:+ d)).
        rewrite visit_as_fold, trace_enter_all. simpl.
        destruct (render _ _ _) as [e|]; simpl; by rewrite <- ?app_assoc.
    + by rewrite (analyze_file_syntax_error _ _ code).
Qed.
End run_facts.

(** X9: a run on a file that reads and parses, with a tree the recursion
    limit lets the traversal complete.  The run creates one analyzer, with
    the contents the traversal extracts; its events are, in this order: the
    file is opened, the traversal prints its lines, the [Dependencies:]
    header and one line per dependency follow (in the order the set is
    iterated, the one of the report rows).  Then, if the reportlab calls
    succeed, a single report is built last, at the path
    [splitext(file_path)[0]] followed by [_analysis_report.pdf] and titled
    with the base name, and the run returns; if one of them raises, the
    exception leaves the run and no report is built. *)
Theorem X9_run_after_traversal `{Runtime} fs file_path code tree p :
  fs file_path = inr code → ast_parse code = Some tree →
  traversal_overflow tree = None →
  let a := extracted tree (console p ++ [Open file_path]) in
  let output_file := splitext_root file_path +:+ "_analysis_report.pdf" in
  let title := "Code Analysis Report: " +:+ basename file_path in
  let printed :=
    console p ++ [Open file_path]
    ++ map Print (flat_map console_lines (visit_order tree))
    ++ [Print (NL +:+ Fore_RED +:+ "Dependencies:")]
    ++ map (λ d, Print (TAB +:+ d)) (iterate (dependencies a)) in
  let r := analyze_file fs file_path p in
  heap r.1 = heap p ++ [a] ∧
  match render output_file title (report_data a) with
  | None => console r.1 = printed ++ [Build output_file title (report_data a)]
            ∧ r.2 = Returned
  | Some e => console r.1 = printed ∧ r.2 = Raised e
  end.
Proof.
  intros Hfs Hparse Hover a output_file title printed r. unfold r.
  rewrite (analyze_file_complete _ _ code tree) by done. simpl.
  fold (extracted tree (console p ++ [Open file_path])). fold a.
  split; [done|].
  unfold generate_pdf_report. fold output_file. fold title.
  rewrite (foldl_print_lines (λ d, TAB +:+ d)).
  rewrite visit_as_fold, trace_enter_all. simpl.
  destruct (render output_file title (report_data a)) as [e|]; simpl;
    unfold printed; by rewrite <- ?app_assoc.
Qed.


(** ** The report *)

(** X11: the report table starts with the header row and has one row per
    function, per class and per dependency; every row has three cells. *)
Theorem X11_report_table_shape `{Runtime} a :
  length (report_data a)
  = 1 + length (functions a) + length (classes a) + size (dependencies a)
  ∧ head (report_data a) = Some [Some "Type"; Some "Name"; Some "Docstring"]
  ∧ Forall (λ row, length row = 3) (report_data a).
Proof.
  unfold report_data. split; [|split].
  - rewrite !length_app, !length_map, length_iterate. simpl. lia.
  - done.
  - repeat apply Forall_app_2; apply Forall_forall; intros row Hrow.
    + apply list_elem_of_singleton in Hrow. by subst.
    + apply list_elem_of_In, in_map_iff in Hrow as (kv & <- & _). done.
    + apply list_elem_of_In, in_map_iff in Hrow as (kv & <- & _). done.
    + apply list_elem_of_In, in_map_iff in Hrow as (d & <- & _). done.
Qed.

(** X12: the rows of the report are the contents of the analyzer.  When no
    name has two entries, a [Function] row with a name and a docstring cell
    is in the table exactly when the functions map holds that docstring for
    the name, likewise for [Class] rows, and an [Import] row (with an empty
    third cell) exactly when the key is in the dependency set. *)
Theorem X12_report_rows_are_the_results `{Runtime} a name doc :
  NoDup (dict_keys (functions a)) → NoDup (dict_keys (classes a)) →
  ([Some "Function"; Some name; doc] ∈ report_data a
   ↔ dict_get (functions a) name = Some doc) ∧
  ([Some "Class"; Some name; doc] ∈ report_data a
   ↔ dict_get (classes a) name = Some doc) ∧
  ([Some "Import"; Some name; Some ""] ∈ report_data a ↔ name ∈ dependencies a).
Proof.
  intros Hf Hc. unfold report_data.
  rewrite <- (dict_get_elem_of (functions a)), <- (dict_get_elem_of (classes a)) by done.
  rewrite <- (elem_of_iterate (dependencies a)).
  rewrite !elem_of_app, !list_elem_of_singleton, !list_elem_of_In, !in_map_iff.
  split; [|split]; split.
  - intros [[=]|[([k v] & [= -> ->] & Hin)|[(kv & [=] & _)|(d & [=] & _)]]]. done.
  - intros Hin. right. left. by exists (name, doc).
  - intros [[=]|[(kv & [=] & _)|[([k v] & [= -> ->] & Hin)|(d & [=] & _)]]]. done.
  - intros Hin. right. right. left. by exists (name, doc).
  - intros [[=]|[(kv & [=] & _)|[(kv & [=] & _)|(d & [= ->] & Hin)]]]. done.
  - intros Hin. right. right. right. by exists name.
Qed.

(** X13: the report never goes to the analysed file itself.  As
    [os.path.splitext] cuts a path into a root and an extension that is empty
    or begins with a dot, the report path (root followed by
    [_analysis_report.pdf]) differs from the path of the source. *)
Theorem X13_report_is_not_the_source `{Runtime} fs prog file_path ext :
  file_path = splitext_root file_path +:+ ext →
  (ext = "" ∨ ∃ rest, ext = "." +:+ rest) →
  ∀ output_file title data,
    Build output_file title data ∈ run_trace (main fs prog [file_path]) →
    output_file ≠ file_path.
Proof.
  intros Hsplit Hext output_file title data Hin Heq. subst output_file.
  assert (Hout : splitext_root file_path +:+ "_analysis_report.pdf" = file_path).
  { rewrite main_run in Hin.
    destruct (fs file_path) as [e|code]; cbn [run_trace] in Hin.
    - apply list_elem_of_singleton in Hin. done.
    - destruct (ast_parse code) as [tree|]; cbn [run_trace] in Hin.
      + destruct (traversal_overflow tree) as [k|]; cbn [run_trace] in Hin.
        * apply elem_of_cons in Hin as [[=]|Hin].
          by apply (not_built_in_prints (λ x, x)) in Hin.
        * cbv zeta in Hin.
          destruct (render _ _ _) as [e|]; cbn [run_trace] in Hin.
          -- by apply not_built_in_printed in Hin.
          -- apply elem_of_app in Hin as [Hin|Hin].
             ++ by apply not_built_in_printed in Hin.
             ++ apply list_elem_of_singleton in Hin. injection Hin as Hp _ _.
                by symmetry.
      + apply list_elem_of_singleton in Hin. done. }
  rewrite Hsplit in Hout at 2. apply (inj (String.append _)) in Hout.
  destruct Hext as [->|[rest ->]]; discriminate Hout.
Qed.

(** ** The further properties at concrete inputs *)

Lemma X1_witness :
  "a.b" ∈ dependencies (self (@visit Witness.rt Inputs.nested Witness.fresh)).
Proof.
  apply (@X1_plain_import_bare_name Witness.rt Inputs.nested Witness.fresh
           [Alias "a.b" None; Alias "numpy" (Some "np")] (Alias "a.b" None)).
  - eapply subnode_child; [|apply subnode_here]. simpl. apply elem_of_cons. by left.
  - apply elem_of_cons. by left.
Defined.

Lemma X3_witness :
  functions (@extracted Witness.rt Inputs.nested [])
  = [("outer", Some "Outer."); ("inner", None); ("method", None)].
Proof.
  rewrite (proj1 (@X3_distinct_names_in_order Witness.rt Inputs.nested [])).
  - vm_compute. reflexivity.
  - apply (bool_decide_unpack _). vm_compute. exact I.
Defined.

Lemma X4_witness :
  @visit Witness.rt Inputs.plain Inputs.earlier = Inputs.earlier.
Proof.
  apply (@X4_no_handler_no_effect Witness.rt).
  intros n Hn. apply visit_order_subnode in Hn. simpl in Hn.
  repeat (apply elem_of_cons in Hn as [->|Hn]; [done|]).
  by apply elem_of_nil in Hn.
Defined.

Lemma X5_witness :
  dict_get (functions (self (@visit Witness.rt Inputs.nested Inputs.earlier))) "kept"
  = dict_get (functions (self Inputs.earlier)) "kept".
Proof.
  apply (proj1 (proj2 (proj2 (proj2
           (@X5_visit_only_adds Witness.rt Inputs.nested Inputs.earlier))))).
  intros n Hn. apply visit_order_subnode in Hn. simpl in Hn.
  repeat (apply elem_of_cons in Hn as [->|Hn]; [done|]).
  by apply elem_of_nil in Hn.
Defined.

Lemma X6_witness :
  NoDup (dict_keys (functions (self (@visit Witness.rt Witness.twice Inputs.earlier))))
  ∧ NoDup (dict_keys (classes (self (@visit Witness.rt Witness.twice Inputs.earlier)))).
Proof.
  apply (@X6_keys_stay_unique Witness.rt Witness.twice Inputs.earlier);
    apply (bool_decide_unpack _); vm_compute; exact I.
Defined.

Lemma X9_witness :
  heap (@analyze_file Witness.rt Inputs.scenario_files "t.py" Witness.busy).1
  = heap Witness.busy
    ++ [@extracted Witness.rt Sample.scenario_tree (console Witness.busy ++ [Open "t.py"])].
Proof.
  assert (H1 : Inputs.scenario_files "t.py" = inr Sample.scenario_source)
    by (vm_compute; reflexivity).
  assert (H2 : @ast_parse Witness.rt Sample.scenario_source = Some Sample.scenario_tree)
    by (vm_compute; reflexivity).
  assert (H3 : @traversal_overflow Witness.rt Sample.scenario_tree = None)
    by reflexivity.
  exact (proj1 (@X9_run_after_traversal Witness.rt Inputs.scenario_files "t.py"
                  Sample.scenario_source Sample.scenario_tree Witness.busy H1 H2 H3)).
Defined.


Lemma X12_witness :
  [Some "Class"; Some "Bar"; None] ∈ @report_data Witness.rt Inputs.scenario_result
  ∧ [Some "Import"; Some "os"; Some ""] ∈ @report_data Witness.rt Inputs.scenario_result.
Proof.
  assert (Hf : NoDup (dict_keys (functions Inputs.scenario_result)))
    by (apply (bool_decide_unpack _); vm_compute; exact I).
  assert (Hc : NoDup (dict_keys (classes Inputs.scenario_result)))
    by (apply (bool_decide_unpack _); vm_compute; exact I).
  split.
  - apply (proj1 (proj2 (@X12_report_rows_are_the_results Witness.rt
                           Inputs.scenario_result "Bar" None Hf Hc))).
    vm_compute. reflexivity.
  - apply (proj2 (proj2 (@X12_report_rows_are_the_results Witness.rt
                           Inputs.scenario_result "os" None Hf Hc))).
    vm_compute. reflexivity.
Defined.

Lemma X13_witness :
  Build "t_analysis_report.pdf" "Code Analysis Report: t.py"
    (@report_data Witness.rt Inputs.scenario_result)
  ∈ run_trace (@main Witness.rt Inputs.scenario_files "code_analysis.py" ["t.py"])
  ∧ "t_analysis_report.pdf" ≠ "t.py".
Proof.
  assert (Hin : Build "t_analysis_report.pdf" "Code Analysis Report: t.py"
                  (@report_data Witness.rt Inputs.scenario_result)
                ∈ run_trace (@main Witness.rt Inputs.scenario_files
                               "code_analysis.py" ["t.py"])).
  { vm_compute. repeat constructor. }
  split; [exact Hin|].
  apply (@X13_report_is_not_the_source Witness.rt Inputs.scenario_files
           "code_analysis.py" "t.py" ".py" eq_refl
           (or_intror (ex_intro _ "py" eq_refl))
           _ _ _ Hin).
Defined.
